(** * cas_lookup_app: batch resolution of CAS numbers

    A shallow embedding of [fetch_cas_info] and [process_file] of
    [src/cas_lookup_app.py], and the properties of the batch resolution
    engine that the specification states about them.

    Python values are an inductive type; exceptions are the [Raise] side of
    a result type; the requests a call sends are recorded in a log that is
    threaded through the resolver; the override dictionary is a [gmap]; the
    two result lists are lists updated by index. *)

From Stdlib Require Import ZArith Ascii String PrimFloat.
From stdpp Require Import base option list strings pretty gmap.

Local Open Scope string_scope.
Local Open Scope list_scope.
Local Open Scope nat_scope.

Set Warnings "-inexact-float,-register-all".

(** ** Python values *)

(** The values the program handles: what [response.json()] may return, what
    a spreadsheet cell may hold, and what ends up in the result lists. A
    [dict] is kept as its list of items; JSON objects have string keys. *)
Inductive pyval : Type :=
| PNone
| PBool (b : bool)
| PInt (z : Z)
| PFloat (f : float)
| PStr (s : string)
| PList (l : list pyval)
| PDict (items : list (string * pyval)).

(** The exception classes that occur. All of them derive from [Exception]. *)
Inductive exn : Type :=
| RequestException   (* connection failure, timeout, ... raised by requests *)
| JSONDecodeError    (* raised by response.json(); a ValueError *)
| AttributeError
| TypeError
| ValueError
| KeyError
| IndexError
| OverflowError.

Global Instance exn_eq_dec : EqDecision exn.
Proof. solve_decision. Defined.

(** [isinstance(e, cls)] for the classes above: the only proper subclass
    relation among them is JSONDecodeError <= ValueError. *)
Definition exn_isinstance (e cls : exn) : bool :=
  bool_decide (e = cls) || bool_decide (e = JSONDecodeError ∧ cls = ValueError).

(** Outcome of a Python computation: a value or a raised exception. *)
Inductive res (A : Type) : Type :=
| Ok (a : A)
| Raise (e : exn).
Arguments Ok {A} a.
Arguments Raise {A} e.

Global Instance res_ret : MRet res := λ A a, Ok a.
Global Instance res_bind : MBind res := λ A B f m,
  match m with
  | Ok a => f a
  | Raise e => Raise e
  end.

(** [try: m  except classes: handler] *)
Definition res_try {A} (m : res A) (classes : list exn) (handler : res A) : res A :=
  match m with
  | Ok a => Ok a
  | Raise e => if existsb (exn_isinstance e) classes then handler else Raise e
  end.

(** ** The builtins the program calls *)

(** [float(s)] for a string, [float(n)] for an integer, and [str(v)] for a
    float, a list or a dict are Python's own; the program only calls them.
    [None] stands for the ValueError of [float(s)] and for the OverflowError
    of [float(n)]. *)
Class Builtins : Type := {
  float_of_str : string → option float;
  float_of_int : Z → option float;
  str_of : pyval → string;
}.

Section Values.
Context {builtins : Builtins}.

(** Truth value of an object, as tested by [if x:] and [if not x:]. *)
Definition py_truthy (v : pyval) : bool :=
  match v with
  | PNone => false
  | PBool b => b
  | PInt z => negb (z =? 0)%Z
  | PFloat f => negb (PrimFloat.eqb f 0%float)
  | PStr s => negb (String.eqb s "")
  | PList l => negb (Nat.eqb (length l) 0)
  | PDict items => negb (Nat.eqb (length items) 0)
  end.

(** [d[key]] on the items of a dict. *)
Fixpoint dict_lookup (key : string) (items : list (string * pyval)) : option pyval :=
  match items with
  | [] => None
  | (k, v) :: rest => if String.eqb k key then Some v else dict_lookup key rest
  end.

(** [obj.get(key, default)]: only a dict has the method. *)
Definition py_get (obj : pyval) (key : string) (default : pyval) : res pyval :=
  match obj with
  | PDict items => Ok (from_option id default (dict_lookup key items))
  | _ => Raise AttributeError
  end.

(** [obj[0]]. A str gives its first character (strings are byte strings
    here, so its first byte); a JSON dict has no key [0]. *)
Definition py_getitem0 (obj : pyval) : res pyval :=
  match obj with
  | PList (x :: _) => Ok x
  | PList [] => Raise IndexError
  | PStr (String c _) => Ok (PStr (String c EmptyString))
  | PStr EmptyString => Raise IndexError
  | PDict _ => Raise KeyError
  | PNone | PBool _ | PInt _ | PFloat _ => Raise TypeError
  end.

(** [float(v)] *)
Definition py_float (v : pyval) : res float :=
  match v with
  | PFloat f => Ok f
  | PInt z => from_option Ok (Raise OverflowError) (float_of_int z)
  | PBool b => Ok (if b then 1%float else 0%float)
  | PStr s => from_option Ok (Raise ValueError) (float_of_str s)
  | PNone | PList _ | PDict _ => Raise TypeError
  end.

(** [str(v)]: a string is itself, an integer its decimal digits. *)
Definition py_str (v : pyval) : string :=
  match v with
  | PStr s => s
  | PNone => "None"
  | PBool b => if b then "True" else "False"
  | PInt z => pretty z
  | PFloat _ | PList _ | PDict _ => str_of v
  end.

(** [pd.isna(v)] on a cell: None and NaN are missing values. A blank cell
    of a sheet is read as a NaN. *)
Definition py_isna (v : pyval) : bool :=
  match v with
  | PNone => true
  | PFloat f => PrimFloat.is_nan f
  | _ => false
  end.
End Values.

(** ** Results and the override table *)

(** What [fetch_cas_info] returns: the pair (formula, weight). The formula
    is whatever the record holds under "MolecularFormula" ([PNone] when
    nothing), the weight a float or None. *)
Definition PropertyResult : Type := pyval * option float.

Definition absent : PropertyResult := (PNone, None).

(** ** The remote service and the request log *)

(** What [requests.get] hands back: a status code and what [.json()] does. *)
Record Response : Type := {
  status_code : Z;
  json : res pyval;
}.

(** One call of [requests.get(url, timeout=10)] either raises or returns. *)
Inductive HttpOutcome : Type :=
| GetRaises (e : exn)
| GetReturns (r : Response).

(** The service as one call of [fetch_cas_info] meets it: the outcome of the
    request to [url] sent after [k] earlier requests of that call. *)
Definition RemoteService : Type := string → nat → HttpOutcome.

(** A computation that sends requests: it threads the log of the URLs
    requested so far and ends in a value or an exception. *)
Definition Py (A : Type) : Type := list string → res A * list string.

Global Instance Py_ret : MRet Py := λ A a log, (Ok a, log).
Global Instance Py_bind : MBind Py := λ A B f m log,
  match m log with
  | (Ok a, log') => f a log'
  | (Raise e, log') => (Raise e, log')
  end.

Definition lift {A} (r : res A) : Py A := λ log, (r, log).

(** [try: m  except classes: handler] *)
Definition py_try {A} (m : Py A) (classes : list exn) (handler : Py A) : Py A :=
  λ log,
    match m log with
    | (Ok a, log') => (Ok a, log')
    | (Raise e, log') =>
        if existsb (exn_isinstance e) classes then handler log' else (Raise e, log')
    end.

(** [except Exception]: every class of [exn]. *)
Definition Exception : list exn :=
  [RequestException; JSONDecodeError; AttributeError; TypeError; ValueError;
   KeyError; IndexError; OverflowError].

(** ** fetch_cas_info *)

Section Resolver.
Context {builtins : Builtins}.
Variable service : RemoteService.

Definition requests_get (url : string) : Py Response :=
  λ log,
    (match service url (length log) with
     | GetRaises e => Raise e
     | GetReturns r => Ok r
     end, (log ++ [url])).

Definition url_of (cas : string) : string :=
  "https://pubchem.ncbi.nlm.nih.gov/rest/pug/compound/name/" +:+ cas +:+ "/"
  +:+ "property/MolecularFormula,MolecularWeight/JSON".

(** The [try] block inside the loop, without its handler. [Some r] is
    [return r]; [None] is reaching the end of the block. *)
Definition attempt_body (url : string) : Py (option PropertyResult) :=
  response ← requests_get url;
  if (status_code response =? 200)%Z then
    data ← lift (json response);
    table ← lift (py_get data "PropertyTable" (PDict []));
    properties ← lift (py_get table "Properties" (PList []));
    if py_truthy properties then
      prop ← lift (py_getitem0 properties);
      formula ← lift (py_get prop "MolecularFormula" PNone);
      weight_raw ← lift (py_get prop "MolecularWeight" PNone);
      weight ← lift (res_try (w ← py_float weight_raw; Ok (Some w))
                             [TypeError; ValueError] (Ok None));
      mret (Some (formula, weight))
    else mret None
  else mret None.

(** One iteration of [for _ in range(3)]: [except Exception: pass]. *)
Definition attempt (url : string) : Py (option PropertyResult) :=
  py_try (attempt_body url) Exception (mret None).

(** [for _ in range(n): <body>] followed by [return None, None]. *)
Fixpoint retry_loop (n : nat) (url : string) : Py PropertyResult :=
  match n with
  | O => mret absent
  | S n' =>
      r ← attempt url;
      match r with
      | Some result => mret result
      | None => retry_loop n' url
      end
  end.

Definition fetch_cas_info (cas : string)
    (manual_data : gmap string PropertyResult) : Py PropertyResult :=
  match manual_data !! cas with
  | Some result => mret result
  | None => retry_loop 3 (url_of cas)
  end.
End Resolver.

(** ** The data frame *)

(** A frame is its columns in order, each a name and its cells; all columns
    of a frame read from a sheet have the same length, the number of rows. *)
Definition DataFrame : Type := list (string * list pyval).

Definition df_len (df : DataFrame) : nat :=
  match df with
  | [] => O
  | (_, cells) :: _ => length cells
  end.

(** [df.empty]: no column or no row. *)
Definition df_empty (df : DataFrame) : bool :=
  match df with
  | [] => true
  | (_, cells) :: _ => Nat.eqb (length cells) 0
  end.

(** [df.iloc[:, 0]] *)
Definition df_iloc0 (df : DataFrame) : res (list pyval) :=
  match df with
  | [] => Raise IndexError
  | (_, cells) :: _ => Ok cells
  end.

(** [df[name]] *)
Fixpoint df_column (name : string) (df : DataFrame) : option (list pyval) :=
  match df with
  | [] => None
  | (n, cells) :: rest => if String.eqb n name then Some cells else df_column name rest
  end.

Fixpoint set_column (name : string) (values : list pyval) (df : DataFrame) : DataFrame :=
  match df with
  | [] => [(name, values)]
  | (n, cells) :: rest =>
      if String.eqb n name then (name, values) :: rest
      else (n, cells) :: set_column name values rest
  end.

(** [df[name] = values] on a frame that has columns: the list must be as
    long as the index; the column is replaced in place or added last. *)
Definition df_setitem (df : DataFrame) (name : string) (values : list pyval)
    : res DataFrame :=
  if Nat.eqb (length values) (df_len df) then Ok (set_column name values df)
  else Raise ValueError.

(** [l[i] = v] on a list: IndexError out of range. *)
Definition list_setitem {A} (l : list A) (i : nat) (v : A) : res (list A) :=
  if Nat.ltb i (length l) then Ok (<[i:=v]> l) else Raise IndexError.

Section Series.
Context {builtins : Builtins}.

(** [.astype(str)], the conversion to the string type: a missing value
    stays missing, every other cell becomes its [str], a text cell its own
    text. A series of strings is a list of optional strings, [None] being a
    missing value. (Before pandas 3 the conversion made the string "nan" of
    a NaN; the series is modelled as pandas 3 converts it.) *)
Definition astype_str (cells : list pyval) : list (option string) :=
  (λ v, if py_isna v then None else Some (py_str v)) <$> cells.

(** [.fillna(value)] *)
Definition fillna (value : string) (cells : list (option string)) : list string :=
  default value <$> cells.

(** [df.iloc[:, 0].astype(str).fillna("")] *)
Definition cas_series_of (df : DataFrame) : res (list string) :=
  cells ← df_iloc0 df;
  Ok (fillna "" (astype_str cells)).
End Series.

(** ** process_file *)

(** The dictionary literal of [process_file]. *)
Definition manual_data : gmap string PropertyResult :=
  list_to_map [
    ("77536-66-4", (PStr "Ca2Fe5H2O24Si8", Some 970.1%float));
    ("77536-67-5", (PStr "H2Mg7O24Si8", Some 780.82%float));
    ("77536-68-6", (PStr "Ca2H2Mg5O24Si8", Some 812.37%float));
    ("13768-00-8", (PStr "Fe2H16Mg3Na2O24Si8+14", Some 855.38%float));
    ("17068-78-9", (PStr "Fe7H2O24Si8", Some 1001.6%float));
    ("12172-67-7", (PStr "Ca2Fe5H2O24Si8", Some 970.1%float));
    ("12172-73-5", (PStr "Fe7H2O24Si8", Some 1001.6%float));
    ("12001-28-4", (PStr "Fe2H16Mg3Na2O24Si8+14", Some 855.38%float));
    ("12001-29-5", (PStr "H4Mg3O9Si2", Some 277.11%float));
    ("1332-21-4", (PNone, None));
    ("132207-32-0", (PStr "Ca2H2Mg5O24Si8", Some 812.37%float));
    ("132207-33-1", (PStr "Fe2H16Mg3Na2O24Si8+14", Some 855.38%float));
    ("14567-73-8", (PStr "H4Mg3O9Si2", Some 277.11%float));
    ("12185-10-3", (PStr "P4", Some 123.8950480%float));
    ("25512-42-9", (PStr "C12H8Cl2", Some 223.09792%float))
  ].

(** The names of the two added columns. *)
Definition formula_column : string := "示性式".
Definition weight_column : string := "分子量".

(** A future, once done: the call it ran, what the call returned or raised,
    and the requests the call sent. *)
Record Future : Type := {
  fut_cas : string;
  fut_result : res PropertyResult;
  fut_requests : list string;
}.

(** What the coordinator records for a finished future. *)
Definition recorded (future : Future) : PropertyResult :=
  match fut_result future with
  | Ok r => r
  | Raise _ => absent
  end.

(** The network as a run of [process_file] meets it: for the call submitted
    for row [idx], the service that call meets. *)
Definition Network : Type := nat → RemoteService.

(** [as_completed] yields the futures it is given, each once, in the order
    in which they finish: some rearrangement of them. *)
Record Scheduler : Type := {
  as_completed : list (Future * nat) → list (Future * nat);
  as_completed_perm : ∀ fs, as_completed fs ≡ₚ fs;
}.

(** What a run leaves behind: the frame returned (or the exception), and the
    items of [future_to_index], in the order of submission. *)
Record Run : Type := {
  returned : res DataFrame;
  future_to_index : list (Future * nat);
}.

(** A weight as a cell of the frame. *)
Definition weight_cell (w : option float) : pyval :=
  match w with
  | Some f => PFloat f
  | None => PNone
  end.

Section Coordinator.
Context {builtins : Builtins}.
Variable net : Network.
Variable pool : Scheduler.

(** [executor.submit(fetch_cas_info, cas, manual_data)], run to its end. *)
Definition submit (idx : nat) (cas : string) : Future :=
  let '(result, requests) := fetch_cas_info (net idx) cas manual_data [] in
  {| fut_cas := cas; fut_result := result; fut_requests := requests |}.

(** [for idx, cas in enumerate(cas_series)], from position [idx] on: the
    items put into [future_to_index]. *)
Fixpoint submit_loop (idx : nat) (cas_series : list string) : list (Future * nat) :=
  match cas_series with
  | [] => []
  | cas :: rest =>
      if negb (py_truthy (PStr cas)) then submit_loop (S idx) rest
      else (submit idx cas, idx) :: submit_loop (S idx) rest
  end.

(** What the slot of row [idx] holds at the end, for identifier [cas]:
    nothing for an empty identifier, else what its future brought. *)
Definition slot (idx : nat) (cas : string) : PropertyResult :=
  if py_truthy (PStr cas) then recorded (submit idx cas) else absent.

(** [for future in as_completed(future_to_index)] *)
Fixpoint collect_loop (completed : list (Future * nat))
    (formulas : list pyval) (weights : list (option float))
    : res (list pyval * list (option float)) :=
  match completed with
  | [] => Ok (formulas, weights)
  | (future, idx) :: rest =>
      r ← res_try (fut_result future) Exception (Ok absent);
      let '(formula, weight) := r in
      formulas' ← list_setitem formulas idx formula;
      weights' ← list_setitem weights idx weight;
      collect_loop rest formulas' weights'
  end.

(** [process_file(file)], from the frame [df] that [pd.read_excel(file)]
    returned. *)
Definition process_file (df : DataFrame) : Run :=
  if df_empty df then {| returned := Ok df; future_to_index := [] |}
  else
    match cas_series_of df with
    | Raise e => {| returned := Raise e; future_to_index := [] |}
    | Ok cas_series =>
        let formulas := replicate (length cas_series) PNone in
        let weights := replicate (length cas_series) None in
        let futures := submit_loop 0 cas_series in
        {| returned :=
             '(formulas, weights) ← collect_loop (as_completed pool futures)
                                                 formulas weights;
             df ← df_setitem df formula_column formulas;
             df_setitem df weight_column (weight_cell <$> weights);
           future_to_index := futures |}
    end.
End Coordinator.

(** ** What an attempt is given *)

(** The first property record of a response, if the request returned with
    status 200 and a body holding a non-empty record list whose first
    element is a record. *)
Definition first_record (o : HttpOutcome) : option (list (string * pyval)) :=
  match o with
  | GetRaises _ => None
  | GetReturns r =>
      if (status_code r =? 200)%Z then
        match json r with
        | Ok (PDict data) =>
            match from_option id (PDict []) (dict_lookup "PropertyTable" data) with
            | PDict table =>
                match from_option id (PList []) (dict_lookup "Properties" table) with
                | PList (PDict prop :: _) => Some prop
                | _ => None
                end
            | _ => None
            end
        | _ => None
        end
      else None
  end.

(** [prop.get(key)] on a record. *)
Definition record_field (key : string) (prop : list (string * pyval)) : pyval :=
  from_option id PNone (dict_lookup key prop).

(** The ways an attempt fails, as the specification lists them. *)
Inductive FailureMode : HttpOutcome → Prop :=
| transport_error e :
    FailureMode (GetRaises e)
| non_success_status r :
    status_code r ≠ 200%Z → FailureMode (GetReturns r)
| malformed_body r e :
    json r = Raise e → FailureMode (GetReturns r)
| no_property_table r data :
    json r = Ok (PDict data) → dict_lookup "PropertyTable" data = None →
    FailureMode (GetReturns r)
| no_record_list r data table :
    json r = Ok (PDict data) →
    dict_lookup "PropertyTable" data = Some (PDict table) →
    dict_lookup "Properties" table = None →
    FailureMode (GetReturns r)
| empty_record_list r data table :
    json r = Ok (PDict data) →
    dict_lookup "PropertyTable" data = Some (PDict table) →
    dict_lookup "Properties" table = Some (PList []) →
    FailureMode (GetReturns r).

(** ** Trimming, as the specification words it *)

(** The specification's normalisation of a cell trims the string: leading
    and trailing white space is removed, as [str.strip()] does. *)
Definition is_whitespace (c : ascii) : bool :=
  let n := nat_of_ascii c in
  (9 <=? n) && (n <=? 13) || (28 <=? n) && (n <=? 32).

Fixpoint lstrip (s : string) : string :=
  match s with
  | EmptyString => EmptyString
  | String c rest => if is_whitespace c then lstrip rest else s
  end.

Definition strip (s : string) : string :=
  String.rev (lstrip (String.rev (lstrip s))).

Definition spec_normalize {builtins : Builtins} (cell : pyval) : string :=
  strip (py_str cell).

(** ** Instances used by the examples *)

(** Builtins that know the strings and integers of the examples: "18.015"
    is a float, "N/A" is not one. *)
Definition sample_builtins : Builtins := {|
  float_of_str s := if String.eqb s "18.015" then Some 18.015%float else None;
  float_of_int z := if (z =? 18)%Z then Some 18%float else None;
  str_of v := match v with PFloat _ => "18.015" | _ => "[]" end;
|}.

(** Futures finish in the order of submission, or in the reverse order. *)
Definition fifo : Scheduler :=
  {| as_completed := id; as_completed_perm := λ fs, reflexivity fs |}.

Definition lifo : Scheduler :=
  {| as_completed := reverse; as_completed_perm := reverse_Permutation |}.

(** A service that is down, and one that answers every request with a
    record whose weight is the string "N/A". *)
Definition service_down : RemoteService :=
  λ _ _, GetRaises RequestException.

Definition water_record : pyval :=
  PDict [("CID", PInt 962%Z); ("MolecularFormula", PStr "H2O");
         ("MolecularWeight", PStr "N/A")].

Definition service_no_weight : RemoteService :=
  λ _ _, GetReturns {| status_code := 200%Z;
                       json := Ok (PDict [("PropertyTable",
                                 PDict [("Properties", PList [water_record])])]) |}.

(** A service that fails differently each time: no connection, then a
    status 404, then a body with an empty record list. *)
Definition service_failing : RemoteService :=
  λ _ k,
    match k with
    | 0 => GetRaises RequestException
    | 1 => GetReturns {| status_code := 404%Z; json := Raise JSONDecodeError |}
    | _ => GetReturns {| status_code := 200%Z;
                         json := Ok (PDict [("PropertyTable",
                                   PDict [("Properties", PList [])])]) |}
    end.

(** A service that is down once and then answers with the record above. *)
Definition service_flaky : RemoteService :=
  λ url k,
    match k with
    | 0 => GetRaises RequestException
    | _ => service_no_weight url k
    end.

(** Sheets: a header with no row under it; the three identifiers of the
    specification's end-to-end example; two override entries, each alone;
    an override entry typed with a leading blank. *)
Definition empty_sheet : DataFrame := [("CAS No.", [])].

Definition example_sheet : DataFrame :=
  [("CAS No.", [PStr "77536-66-4"; PStr ""; PStr "0000-00-0"])].

Definition asbestos_sheet : DataFrame := [("CAS No.", [PStr "1332-21-4"])].

Definition override_sheet : DataFrame := [("CAS No.", [PStr "77536-66-4"])].

Definition padded_sheet : DataFrame := [("CAS No.", [PStr " 12185-10-3"])].

(** A sheet whose first column holds a padded entry, a blank cell, a number
    and an empty text. *)
Definition mixed_sheet : DataFrame :=
  [("CAS No.", [PStr " 12185-10-3"; PFloat nan; PInt 50000%Z; PStr ""])].

(** ** The slots of a whole run *)

(** What the slots of a run hold at the end, row by row. *)
Definition slots {builtins : Builtins} (net : Network) (cas_series : list string)
    : list PropertyResult :=
  imap (slot net) cas_series.

(** Further services and sheets for the examples: a service that is down
    twice and then answers with a record whose weight is the string
    "18.015"; a service whose record carries an integer weight too large for
    a float; a sheet with a second column. *)
Definition water_record_weighed : list (string * pyval) :=
  [("CID", PInt 962%Z); ("MolecularFormula", PStr "H2O");
   ("MolecularWeight", PStr "18.015")].

Definition service_third_time : RemoteService :=
  λ _ k,
    match k with
    | 0 | 1 => GetRaises RequestException
    | _ => GetReturns {| status_code := 200%Z;
                         json := Ok (PDict [("PropertyTable",
                                   PDict [("Properties",
                                           PList [PDict water_record_weighed])])]) |}
    end.

Definition huge_record : list (string * pyval) :=
  [("MolecularFormula", PStr "H2O"); ("MolecularWeight", PInt (10 ^ 400)%Z)].

Definition service_huge_weight : RemoteService :=
  λ _ _, GetReturns {| status_code := 200%Z;
                       json := Ok (PDict [("PropertyTable",
                                 PDict [("Properties", PList [PDict huge_record])])]) |}.

Definition two_column_sheet : DataFrame :=
  [("CAS No.", [PStr "77536-66-4"; PStr "0000-00-0"]);
   ("Name", [PStr "actinolite"; PStr "unknown"])].

(** * Properties *)

(** ** The resolver *)

Lemma Exception_catches_all (e : exn) : existsb (exn_isinstance e) Exception = true.
Proof. by destruct e. Qed.

Section ResolverFacts.
Context {builtins : Builtins}.
Variable service : RemoteService.

(** The [try] block sends one request, whatever becomes of it. *)
Lemma attempt_body_log url log :
  (attempt_body service url log).2 = (log ++ [url]).
Proof.
  unfold attempt_body, requests_get, lift, mbind, mret, Py_bind, Py_ret.
  repeat (case_match; simplify_eq/=; try done).
Qed.

(** An iteration of the loop never raises. *)
Lemma attempt_total url log :
  ∃ r, attempt service url log = (Ok r, (log ++ [url])).
Proof.
  unfold attempt, py_try.
  pose proof (attempt_body_log url log) as Hlog.
  destruct (attempt_body service url log) as [[r|e] log'];
    cbn [snd] in Hlog; subst log'.
  - by exists r.
  - rewrite Exception_catches_all. by exists None.
Qed.

(** Without a record the iteration falls through to the next one. *)
Lemma attempt_no_record url log :
  first_record (service url (length log)) = None →
  attempt service url log = (Ok None, (log ++ [url])).
Proof.
  unfold first_record, attempt, py_try, attempt_body, requests_get, lift,
    mbind, mret, Py_bind, Py_ret, py_get, py_getitem0, py_truthy.
  intros Hrec.
  repeat (case_match; simplify_eq/=; try done).
  all: by destruct e.
Qed.

(** With a record whose weight [float] refuses with a TypeError or a
    ValueError, the iteration returns the formula and no weight. *)
Lemma attempt_weight_refused url log prop e :
  first_record (service url (length log)) = Some prop →
  py_float (record_field "MolecularWeight" prop) = Raise e →
  e = TypeError ∨ e = ValueError →
  attempt service url log
  = (Ok (Some (record_field "MolecularFormula" prop, None)), (log ++ [url])).
Proof.
  unfold first_record, record_field, attempt, py_try, attempt_body,
    requests_get, lift, mbind, mret, Py_bind, Py_ret, py_get.
  intros Hrec Hfloat He.
  repeat (case_match; simplify_eq/=; try done).
  all: rewrite Hfloat in *; destruct He; simplify_eq/=; done.
Qed.

(** With a record whose weight [float] accepts, the iteration returns the
    formula and the weight. *)
Lemma attempt_weight_accepted url log prop w :
  first_record (service url (length log)) = Some prop →
  py_float (record_field "MolecularWeight" prop) = Ok w →
  attempt service url log
  = (Ok (Some (record_field "MolecularFormula" prop, Some w)), (log ++ [url])).
Proof.
  unfold first_record, record_field, attempt, py_try, attempt_body,
    requests_get, lift, mbind, mret, Py_bind, Py_ret, py_get.
  intros Hrec Hfloat.
  repeat (case_match; simplify_eq/=; try done).
  all: rewrite Hfloat in *; simplify_eq/=; done.
Qed.

(** The loop never raises and sends at most [n] requests. *)
Lemma retry_loop_total n url log :
  ∃ r sent, retry_loop service n url log = (Ok r, (log ++ sent))
            ∧ (length sent ≤ n).
Proof.
  revert log. induction n as [|n IH]; intros log.
  - exists absent, []. by rewrite app_nil_r.
  - destruct (attempt_total url log) as [r Hr].
    cbn [retry_loop]. unfold mbind, Py_bind. rewrite Hr.
    destruct r as [result|].
    + exists result, [url]. split; [done | simpl; lia].
    + destruct (IH (log ++ [url])) as (r & sent & Hloop & Hlen).
      exists r, (url :: sent). rewrite Hloop, <- app_assoc. split; [done | simpl; lia].
Qed.

(** When none of the [n] requests brings a record, the loop sends all [n]
    of them and returns (None, None). *)
Lemma retry_loop_exhausted n url log :
  (∀ k, (k < n) → first_record (service url (length log + k)) = None) →
  retry_loop service n url log = (Ok absent, (log ++ replicate n url)).
Proof.
  revert log. induction n as [|n IH]; intros log Hfail.
  - by rewrite app_nil_r.
  - cbn [retry_loop]. unfold mbind, Py_bind.
    rewrite attempt_no_record by (rewrite <- (Nat.add_0_r (length log)); apply Hfail; lia).
    rewrite IH.
    + by rewrite <- app_assoc.
    + intros k Hk. rewrite length_app. simpl.
      replace (length log + 1 + k) with (length log + S k) by lia.
      apply Hfail. lia.
Qed.

(** When the first [j] requests bring no record and the next attempt
    returns [result], the loop returns [result] after [j + 1] requests. *)
Lemma retry_loop_returns n j url log result :
  (j < n) →
  (∀ k, (k < j) → first_record (service url (length log + k)) = None) →
  attempt service url (log ++ replicate j url)
  = (Ok (Some result), (log ++ replicate (S j) url)) →
  retry_loop service n url log = (Ok result, (log ++ replicate (S j) url)).
Proof.
  revert n log. induction j as [|j IH]; intros n log Hj Hfail Hret.
  - destruct n as [|n]; [lia |].
    cbn [retry_loop]. unfold mbind, Py_bind.
    simpl in Hret. rewrite app_nil_r in Hret. by rewrite Hret.
  - destruct n as [|n]; [lia |].
    cbn [retry_loop]. unfold mbind, Py_bind.
    rewrite attempt_no_record by (rewrite <- (Nat.add_0_r (length log)); apply Hfail; lia).
    replace (log ++ replicate (S (S j)) url)
      with ((log ++ [url]) ++ replicate (S j) url)
      by (by rewrite <- app_assoc).
    apply IH; [lia | |].
    + intros k Hk. rewrite length_app. simpl.
      replace (length log + 1 + k) with (length log + S k) by lia.
      apply Hfail. lia.
    + rewrite <- !app_assoc. exact Hret.
Qed.

(** The failure modes of the specification bring no record. *)
Lemma FailureMode_no_record o : FailureMode o → first_record o = None.
Proof.
  destruct 1 as [e|r Hst|r e Hjs|r data Hjs Htab|r data table Hjs Htab Hprops
                 |r data table Hjs Htab Hprops]; simpl; try done.
  all: destruct (status_code r =? 200)%Z eqn:Hs; try done.
  - apply Z.eqb_eq in Hs. done.
  - by rewrite Hjs.
  - by rewrite Hjs, Htab.
  - by rewrite Hjs, Htab; simpl; rewrite Hprops.
  - by rewrite Hjs, Htab; simpl; rewrite Hprops.
Qed.
End ResolverFacts.

(** ** The frame and the result lists *)

Lemma df_column_set_column_eq name values df :
  df_column name (set_column name values df) = Some values.
Proof.
  induction df as [|[n cells] df IH]; simpl.
  - by rewrite String.eqb_refl.
  - destruct (String.eqb n name) eqn:Hn; simpl.
    + by rewrite String.eqb_refl.
    + by rewrite Hn.
Qed.

Lemma df_column_set_column_ne name name' values df :
  name ≠ name' →
  df_column name (set_column name' values df) = df_column name df.
Proof.
  intros Hne. induction df as [|[n cells] df IH]; simpl.
  - by apply String.eqb_neq in Hne; rewrite String.eqb_sym, Hne.
  - destruct (String.eqb n name') eqn:Hn; simpl.
    + apply String.eqb_eq in Hn as ->.
      by apply String.eqb_neq in Hne; rewrite String.eqb_sym, Hne.
    + by rewrite IH.
Qed.

Lemma df_len_set_column name values df :
  length values = df_len df → df ≠ [] →
  df_len (set_column name values df) = df_len df.
Proof.
  intros Hlen Hdf. destruct df as [|[n cells] df]; [done |]. simpl.
  by destruct (String.eqb n name).
Qed.

Lemma set_column_not_nil name values df : set_column name values df ≠ [].
Proof. destruct df as [|[n cells] df]; simpl; [done |]. by destruct (String.eqb n name). Qed.

Lemma df_empty_len df : df_empty df = true ↔ df_len df = 0.
Proof.
  destruct df as [|[n cells] df]; simpl; [done |]. apply Nat.eqb_eq.
Qed.

Lemma truthy_str cas : py_truthy (PStr cas) = true ↔ cas ≠ "".
Proof.
  simpl. rewrite negb_true_iff. apply String.eqb_neq.
Qed.

Lemma future_result_caught future :
  res_try (fut_result future) Exception (Ok absent) = Ok (recorded future).
Proof.
  unfold res_try, recorded. destruct (fut_result future) as [r|e]; [done |].
  by rewrite Exception_catches_all.
Qed.

(** The collecting loop over futures with distinct, valid positions: it
    ends without an exception, writes each future's result at the future's
    position and leaves the other positions as they were. *)
Lemma collect_loop_spec (completed : list (Future * nat)) :
  ∀ (formulas : list pyval) (weights : list (option float)),
    NoDup completed.*2 →
    (∀ future idx, (future, idx) ∈ completed → idx < length formulas) →
    length formulas = length weights →
    ∃ formulas' weights',
      collect_loop completed formulas weights = Ok (formulas', weights')
      ∧ length formulas' = length formulas
      ∧ length weights' = length weights
      ∧ (∀ future idx, (future, idx) ∈ completed →
           formulas' !! idx = Some (recorded future).1
           ∧ weights' !! idx = Some (recorded future).2)
      ∧ (∀ idx, idx ∉ completed.*2 →
           formulas' !! idx = formulas !! idx ∧ weights' !! idx = weights !! idx).
Proof.
  induction completed as [|[future idx] rest IH]; intros formulas weights Hnd Hidx Hlen.
  - exists formulas, weights. split_and!; try done.
    intros ?? Hin. by apply elem_of_nil in Hin.
  - rewrite fmap_cons in Hnd. apply NoDup_cons in Hnd as [Hfresh Hnd].
    assert (idx < length formulas) as Hlt by (eapply Hidx; left).
    cbn [collect_loop]. rewrite future_result_caught. cbn [mbind res_bind].
    destruct (recorded future) as [formula weight] eqn:Hrec.
    unfold list_setitem. rewrite <- Hlen.
    apply Nat.ltb_lt in Hlt as Hltb. rewrite Hltb. cbn [mbind res_bind].
    destruct (IH (<[idx:=formula]> formulas) (<[idx:=weight]> weights))
      as (fs & ws & Hloop & Hfs & Hws & Hwritten & Hkept).
    { done. }
    { intros f i Hin. rewrite length_insert. eapply Hidx. by right. }
    { by rewrite !length_insert. }
    exists fs, ws. rewrite !length_insert in *. split_and!; try done; try congruence.
    + intros f i Hin. apply elem_of_cons in Hin as [[= -> ->]|Hin].
      * destruct (Hkept idx Hfresh) as [-> ->]. rewrite Hrec. split.
        -- by apply list_lookup_insert_eq.
        -- apply list_lookup_insert_eq. by rewrite <- Hlen.
      * by apply Hwritten.
    + intros i Hi. rewrite fmap_cons in Hi. apply not_elem_of_cons in Hi as [Hne Hi].
      destruct (Hkept i Hi) as [-> ->].
      by rewrite !list_lookup_insert_ne.
Qed.

(** ** The coordinator *)

Section CoordinatorFacts.
Context {builtins : Builtins}.
Variable net : Network.
Variable pool : Scheduler.

(** [fetch_cas_info] never raises and sends at most three requests. *)
Lemma fetch_cas_info_total service cas table log :
  ∃ r sent, fetch_cas_info service cas table log = (Ok r, log ++ sent)
            ∧ length sent ≤ 3.
Proof.
  unfold fetch_cas_info. destruct (table !! cas) as [result|].
  - exists result, []. rewrite app_nil_r. split; [done | simpl; lia].
  - apply retry_loop_total.
Qed.

Lemma submit_returns idx cas : ∃ r, fut_result (submit net idx cas) = Ok r.
Proof.
  unfold submit.
  destruct (fetch_cas_info_total (net idx) cas manual_data []) as (r & sent & -> & _).
  by exists r.
Qed.

Lemma submit_override idx cas result :
  manual_data !! cas = Some result →
  submit net idx cas
  = {| fut_cas := cas; fut_result := Ok result; fut_requests := [] |}.
Proof. intros Hhit. unfold submit, fetch_cas_info. by rewrite Hhit. Qed.

(** The futures of the submission loop: one for each non-empty
    identifier, tagged with the identifier's position. *)
Lemma submit_loop_elem cas_series : ∀ start future idx,
  (future, idx) ∈ submit_loop net start cas_series
  ↔ ∃ cas, start ≤ idx ∧ cas_series !! (idx - start) = Some cas
           ∧ cas ≠ "" ∧ future = submit net idx cas.
Proof.
  induction cas_series as [|c rest IH]; intros start future idx; cbn [submit_loop].
  - split.
    + intros Hin. by apply elem_of_nil in Hin.
    + by intros (cas & _ & Hl & _).
  - destruct (py_truthy (PStr c)) eqn:Hc; cbn [negb].
    + apply truthy_str in Hc. rewrite elem_of_cons, IH. split.
      * intros [[= -> ->]|(cas & Hle & Hl & Hne & ->)].
        -- exists c. by rewrite Nat.sub_diag.
        -- exists cas. split_and!; try done; [lia |].
           by replace (idx - start) with (S (idx - S start)) by lia.
      * intros (cas & Hle & Hl & Hne & ->).
        destruct (decide (idx = start)) as [->|Hidx].
        -- rewrite Nat.sub_diag in Hl. simplify_eq/=. by left.
        -- right. exists cas. split_and!; try done; [lia |].
           by replace (idx - start) with (S (idx - S start)) in Hl by lia.
    + assert (c = "") as ->.
      { destruct (decide (c = "")) as [|Hne]; [done |].
        apply truthy_str in Hne. congruence. }
      rewrite IH. split.
      * intros (cas & Hle & Hl & Hne & ->). exists cas. split_and!; try done; [lia |].
        by replace (idx - start) with (S (idx - S start)) by lia.
      * intros (cas & Hle & Hl & Hne & ->).
        destruct (decide (idx = start)) as [->|Hidx].
        -- rewrite Nat.sub_diag in Hl. by simplify_eq/=.
        -- exists cas. split_and!; try done; [lia |].
           by replace (idx - start) with (S (idx - S start)) in Hl by lia.
Qed.

Lemma submit_loop_positions cas_series start idx :
  idx ∈ (submit_loop net start cas_series).*2 →
  start ≤ idx < start + length cas_series.
Proof.
  intros Hin. apply list_elem_of_fmap in Hin as ([future i] & -> & Hin).
  apply submit_loop_elem in Hin as (cas & Hle & Hl & _). simpl.
  apply lookup_lt_Some in Hl. lia.
Qed.

(** No position is submitted twice. *)
Lemma submit_loop_NoDup cas_series : ∀ start,
  NoDup (submit_loop net start cas_series).*2.
Proof.
  induction cas_series as [|c rest IH]; intros start; cbn [submit_loop].
  - constructor.
  - destruct (negb (py_truthy (PStr c))); [apply IH |].
    rewrite fmap_cons. apply NoDup_cons. split; [| apply IH].
    intros Hin. apply submit_loop_positions in Hin. simpl in Hin. lia.
Qed.

Lemma cas_series_length df cas_series :
  cas_series_of df = Ok cas_series → length cas_series = df_len df.
Proof.
  destruct df as [|[n cells] df]; [done |].
  intros [= <-]. unfold fillna, astype_str. by rewrite !length_fmap.
Qed.

Lemma formula_weight_columns_differ : formula_column ≠ weight_column.
Proof. done. Qed.

(** A run on a frame that is not empty: it returns the frame with the two
    columns, as long as the identifier sequence, and slot [i] of each
    holds what belongs to identifier [i], in whatever order the futures
    finished. *)
Lemma process_file_run df :
  df_empty df = false →
  ∃ cas_series formulas weights out,
    cas_series_of df = Ok cas_series
    ∧ returned (process_file net pool df) = Ok out
    ∧ future_to_index (process_file net pool df) = submit_loop net 0 cas_series
    ∧ df_column formula_column out = Some formulas
    ∧ df_column weight_column out = Some (weight_cell <$> weights)
    ∧ length formulas = length cas_series
    ∧ length weights = length cas_series
    ∧ ∀ idx cas, cas_series !! idx = Some cas →
        formulas !! idx = Some (slot net idx cas).1
        ∧ weights !! idx = Some (slot net idx cas).2.
Proof.
  intros Hne. unfold process_file. rewrite Hne.
  destruct (cas_series_of df) as [cas_series|e] eqn:Hseries;
    [| by destruct df as [|[??] ?]].
  pose proof (cas_series_length _ _ Hseries) as Hrows.
  assert (df ≠ []) as Hdf by (by intros ->).
  set (futures := submit_loop net 0 cas_series).
  destruct (collect_loop_spec (as_completed pool futures)
              (replicate (length cas_series) PNone)
              (replicate (length cas_series) None))
    as (formulas & weights & Hloop & Hfs & Hws & Hwritten & Hkept).
  { rewrite (as_completed_perm pool futures). apply submit_loop_NoDup. }
  { intros future idx Hin. rewrite (as_completed_perm pool futures) in Hin.
    rewrite length_replicate.
    assert (0 ≤ idx < 0 + length cas_series) as Hpos; [| lia].
    apply submit_loop_positions, list_elem_of_fmap. by exists (future, idx). }
  { by rewrite !length_replicate. }
  rewrite length_replicate in Hfs. rewrite length_replicate in Hws.
  exists cas_series, formulas, weights.
  cbn [returned future_to_index]. rewrite Hloop. cbn [mbind res_bind].
  unfold df_setitem. rewrite Hfs, Hrows, Nat.eqb_refl. cbn [mbind res_bind].
  rewrite length_fmap, Hws, Hrows.
  rewrite df_len_set_column by (done || congruence). rewrite Nat.eqb_refl.
  eexists. split_and!; try done.
  - rewrite df_column_set_column_ne by apply formula_weight_columns_differ.
    apply df_column_set_column_eq.
  - apply df_column_set_column_eq.
  - intros idx cas Hl. unfold slot.
    destruct (py_truthy (PStr cas)) eqn:Hcas.
    + apply Hwritten. rewrite (as_completed_perm pool futures).
      apply submit_loop_elem. exists cas. rewrite Nat.sub_0_r.
      split_and!; try done; [lia |]. by apply truthy_str.
    + destruct (Hkept idx) as [-> ->].
      * rewrite (as_completed_perm pool futures). intros Hin.
        apply list_elem_of_fmap in Hin as ([future i] & -> & Hin).
        apply submit_loop_elem in Hin as (cas' & _ & Hl' & Hne' & _).
        cbn [snd] in Hl. rewrite Nat.sub_0_r, Hl in Hl'. injection Hl' as <-.
        apply truthy_str in Hne'. congruence.
      * apply lookup_lt_Some in Hl.
        by rewrite !lookup_replicate_2.
Qed.
End CoordinatorFacts.

(** ** Shared facts about a run *)

Section RunFacts.
Context {builtins : Builtins}.
Variable net : Network.
Variable pool : Scheduler.

(** The futures of a run are those of the submission loop. *)
Lemma process_file_futures df cas_series :
  cas_series_of df = Ok cas_series →
  future_to_index (process_file net pool df) = submit_loop net 0 cas_series.
Proof.
  intros Hseries. destruct (df_empty df) eqn:Hempty.
  - unfold process_file. rewrite Hempty. simpl.
    apply df_empty_len in Hempty. apply cas_series_length in Hseries.
    rewrite Hempty in Hseries. by destruct cas_series.
  - destruct (process_file_run net pool df Hempty)
      as (ids & _ & _ & _ & Hids & _ & -> & _). congruence.
Qed.

(** The slot of a row that exists. *)
Lemma process_file_slot df cas_series idx cas :
  cas_series_of df = Ok cas_series →
  cas_series !! idx = Some cas →
  ∃ out formulas weights,
    returned (process_file net pool df) = Ok out
    ∧ df_column formula_column out = Some formulas
    ∧ df_column weight_column out = Some weights
    ∧ formulas !! idx = Some (slot net idx cas).1
    ∧ weights !! idx = Some (weight_cell (slot net idx cas).2).
Proof.
  intros Hseries Hidx.
  assert (df_empty df = false) as Hempty.
  { destruct (df_empty df) eqn:Hempty; [| done].
    apply df_empty_len in Hempty. apply cas_series_length in Hseries.
    apply lookup_lt_Some in Hidx. lia. }
  destruct (process_file_run net pool df Hempty)
    as (ids & formulas & weights & out & Hids & Hret & _ & Hf & Hw & _ & _ & Hslot).
  assert (ids = cas_series) as -> by congruence.
  destruct (Hslot idx cas Hidx) as [Hfi Hwi].
  exists out, formulas, (weight_cell <$> weights). split_and!; try done.
  by rewrite list_lookup_fmap, Hwi.
Qed.

(** No future carries the position of an empty identifier. *)
Lemma empty_identifier_not_submitted df cas_series idx future :
  cas_series_of df = Ok cas_series →
  cas_series !! idx = Some "" →
  (future, idx) ∉ future_to_index (process_file net pool df).
Proof.
  intros Hseries Hidx Hin. rewrite (process_file_futures _ _ Hseries) in Hin.
  apply submit_loop_elem in Hin as (cas & _ & Hl & Hne & _).
  rewrite Nat.sub_0_r in Hl. congruence.
Qed.

(** The keys of the override table are not empty. *)
Lemma manual_data_key_not_empty cas result :
  manual_data !! cas = Some result → cas ≠ "".
Proof. intros Hhit ->. vm_compute in Hhit. discriminate. Qed.

(** The slot of an override hit holds the table's value. *)
Lemma slot_override idx cas result :
  manual_data !! cas = Some result → slot net idx cas = result.
Proof.
  intros Hhit. unfold slot, recorded.
  apply manual_data_key_not_empty in Hhit as Hne. apply truthy_str in Hne as ->.
  by rewrite (submit_override net idx cas result Hhit).
Qed.
End RunFacts.

(** * The claims *)

(** C1. An identifier that is a key of the override table resolves to the
    table's value and no request is sent: [fetch_cas_info] returns the stored
    pair and leaves the request log as it was, for any table; and in a run
    of [process_file] the slot of such a row holds the stored pair and the
    future of that row sent no request. This covers a stored pair
    (None, None). *)
Theorem override_hit_returns_table_value
    (builtins : Builtins) (service : RemoteService)
    (net : Network) (pool : Scheduler) :
  (∀ (table : gmap string PropertyResult) cas result log,
     table !! cas = Some result →
     fetch_cas_info service cas table log = (Ok result, log))
  ∧ (∀ df cas_series idx cas result,
       cas_series_of df = Ok cas_series →
       cas_series !! idx = Some cas →
       manual_data !! cas = Some result →
       (∃ out formulas weights,
          returned (process_file net pool df) = Ok out
          ∧ df_column formula_column out = Some formulas
          ∧ df_column weight_column out = Some weights
          ∧ formulas !! idx = Some result.1
          ∧ weights !! idx = Some (weight_cell result.2))
       ∧ ∀ future, (future, idx) ∈ future_to_index (process_file net pool df) →
                   fut_result future = Ok result ∧ fut_requests future = []).
Proof.
  split.
  - intros table cas result log Hhit. unfold fetch_cas_info. by rewrite Hhit.
  - intros df cas_series idx cas result Hseries Hidx Hhit. split.
    + destruct (process_file_slot net pool df cas_series idx cas Hseries Hidx)
        as (out & formulas & weights & Hret & Hf & Hw & Hfi & Hwi).
      rewrite (slot_override net idx cas result Hhit) in Hfi, Hwi.
      by exists out, formulas, weights.
    + intros future Hin. rewrite (process_file_futures _ _ _ _ Hseries) in Hin.
      apply submit_loop_elem in Hin as (cas' & _ & Hl & _ & ->).
      rewrite Nat.sub_0_r in Hl. assert (cas' = cas) as -> by congruence.
      by rewrite (submit_override net idx cas result Hhit).
Qed.

Lemma override_hit_returns_table_value_witness :
  fetch_cas_info (builtins := sample_builtins) service_down
    "1332-21-4" manual_data [] = (Ok absent, [])
  ∧ ∃ out formulas weights,
      returned (process_file (builtins := sample_builtins)
                  (λ _, service_down) lifo asbestos_sheet) = Ok out
      ∧ df_column formula_column out = Some formulas
      ∧ df_column weight_column out = Some weights
      ∧ formulas !! 0 = Some PNone
      ∧ weights !! 0 = Some PNone.
Proof.
  destruct (override_hit_returns_table_value sample_builtins service_down
              (λ _, service_down) lifo) as [Hfetch Hrun].
  split.
  - apply Hfetch. vm_compute. reflexivity.
  - apply (Hrun asbestos_sheet ["1332-21-4"] 0 "1332-21-4" absent).
    + reflexivity.
    + reflexivity.
    + vm_compute. reflexivity.
Defined.

(** C2, as stated, fails on a sheet with no row: the frame comes back as it
    was, with no formula column and no weight column. *)
Lemma no_rows_no_result_columns :
  cas_series_of (builtins := sample_builtins) empty_sheet = Ok []
  ∧ returned (process_file (builtins := sample_builtins)
                (λ _, service_down) fifo empty_sheet) = Ok empty_sheet
  ∧ df_column formula_column empty_sheet = None
  ∧ df_column weight_column empty_sheet = None.
Proof. vm_compute. done. Qed.

(** C2, amended. For every sheet with at least one row, [process_file]
    returns the frame with a formula column and a weight column, both as
    long as the identifier sequence, and position [idx] of each holds what
    belongs to identifier [idx], in whatever order the futures finished. *)
Theorem result_columns_have_input_length
    (builtins : Builtins) (net : Network) (pool : Scheduler) (df : DataFrame) :
  df_empty df = false →
  ∃ cas_series formulas weights out,
    cas_series_of df = Ok cas_series
    ∧ length cas_series = df_len df
    ∧ returned (process_file net pool df) = Ok out
    ∧ df_column formula_column out = Some formulas
    ∧ df_column weight_column out = Some weights
    ∧ length formulas = length cas_series
    ∧ length weights = length cas_series
    ∧ ∀ idx cas, cas_series !! idx = Some cas →
        formulas !! idx = Some (slot net idx cas).1
        ∧ weights !! idx = Some (weight_cell (slot net idx cas).2).
Proof.
  intros Hempty.
  destruct (process_file_run net pool df Hempty)
    as (ids & formulas & weights & out & Hids & Hret & _ & Hf & Hw & Hlf & Hlw & Hslot).
  exists ids, formulas, (weight_cell <$> weights), out.
  split_and!; try done.
  - by apply cas_series_length.
  - by rewrite length_fmap.
  - intros idx cas Hidx. destruct (Hslot idx cas Hidx) as [Hfi Hwi].
    split; [done |]. by rewrite list_lookup_fmap, Hwi.
Qed.

Lemma result_columns_have_input_length_witness :
  ∃ cas_series formulas weights out,
    cas_series_of (builtins := sample_builtins) example_sheet = Ok cas_series
    ∧ length cas_series = df_len example_sheet
    ∧ returned (process_file (builtins := sample_builtins)
                  (λ _, service_down) lifo example_sheet) = Ok out
    ∧ df_column formula_column out = Some formulas
    ∧ df_column weight_column out = Some weights
    ∧ length formulas = length cas_series
    ∧ length weights = length cas_series
    ∧ ∀ idx cas, cas_series !! idx = Some cas →
        formulas !! idx
        = Some (slot (builtins := sample_builtins) (λ _, service_down) idx cas).1
        ∧ weights !! idx
          = Some (weight_cell
                    (slot (builtins := sample_builtins) (λ _, service_down) idx cas).2).
Proof.
  apply (result_columns_have_input_length sample_builtins
           (λ _, service_down) lifo example_sheet).
  reflexivity.
Defined.

(** C3. For an identifier that is not in the override table, when none of
    the three requests brings a record, [fetch_cas_info] returns
    (None, None) and has sent exactly three requests. *)
Theorem three_failures_give_absent
    (builtins : Builtins) (service : RemoteService)
    (table : gmap string PropertyResult) (cas : string) :
  table !! cas = None →
  (∀ k, k < 3 → first_record (service (url_of cas) k) = None) →
  fetch_cas_info service cas table []
  = (Ok absent, [url_of cas; url_of cas; url_of cas]).
Proof.
  intros Hmiss Hfail. unfold fetch_cas_info. rewrite Hmiss.
  by rewrite retry_loop_exhausted.
Qed.

Lemma three_failures_give_absent_witness :
  fetch_cas_info (builtins := sample_builtins) service_down "0000-00-0" manual_data []
  = (Ok absent, [url_of "0000-00-0"; url_of "0000-00-0"; url_of "0000-00-0"]).
Proof.
  apply (three_failures_give_absent sample_builtins service_down manual_data "0000-00-0").
  - vm_compute. reflexivity.
  - intros k Hk. reflexivity.
Defined.

(** C4. The slot of an empty-string identifier holds (None, None) in both
    result columns, and no future is created for its row, so no request is
    sent for it. *)
Theorem empty_identifier_is_skipped
    (builtins : Builtins) (net : Network) (pool : Scheduler)
    (df : DataFrame) (cas_series : list string) (idx : nat) :
  cas_series_of df = Ok cas_series →
  cas_series !! idx = Some "" →
  (∃ out formulas weights,
     returned (process_file net pool df) = Ok out
     ∧ df_column formula_column out = Some formulas
     ∧ df_column weight_column out = Some weights
     ∧ formulas !! idx = Some PNone
     ∧ weights !! idx = Some PNone)
  ∧ ∀ future, (future, idx) ∉ future_to_index (process_file net pool df).
Proof.
  intros Hseries Hidx. split.
  - apply (process_file_slot net pool df cas_series idx "" Hseries Hidx).
  - intros future. by eapply empty_identifier_not_submitted.
Qed.

Lemma empty_identifier_is_skipped_witness :
  (∃ out formulas weights,
     returned (process_file (builtins := sample_builtins)
                 (λ _, service_down) lifo example_sheet) = Ok out
     ∧ df_column formula_column out = Some formulas
     ∧ df_column weight_column out = Some weights
     ∧ formulas !! 1 = Some PNone
     ∧ weights !! 1 = Some PNone)
  ∧ ∀ future,
      (future, 1) ∉ future_to_index (process_file (builtins := sample_builtins)
                                       (λ _, service_down) lifo example_sheet).
Proof.
  apply (empty_identifier_is_skipped sample_builtins (λ _, service_down) lifo
           example_sheet ["77536-66-4"; ""; "0000-00-0"] 1).
  - reflexivity.
  - reflexivity.
Defined.

(** C5. For an identifier that is not in the override table: when an
    attempt (after [j] attempts that brought no record, [j] below 3) gets a
    record whose weight [float] refuses with a TypeError (None, a list, a
    dict) or a ValueError (a string that is no number), [fetch_cas_info]
    returns the record's formula with no weight, and that request is the
    last one: the attempt is not retried. *)
Theorem refused_weight_keeps_formula
    (builtins : Builtins) (service : RemoteService)
    (table : gmap string PropertyResult) (cas : string)
    (j : nat) (prop : list (string * pyval)) (e : exn) :
  table !! cas = None →
  j < 3 →
  (∀ k, k < j → first_record (service (url_of cas) k) = None) →
  first_record (service (url_of cas) j) = Some prop →
  py_float (record_field "MolecularWeight" prop) = Raise e →
  e = TypeError ∨ e = ValueError →
  fetch_cas_info service cas table []
  = (Ok (record_field "MolecularFormula" prop, None), replicate (S j) (url_of cas)).
Proof.
  intros Hmiss Hj Hfail Hrec Hfloat He. unfold fetch_cas_info. rewrite Hmiss.
  apply (retry_loop_returns service 3 j (url_of cas) []); [done | done |].
  rewrite (attempt_weight_refused service (url_of cas) _ prop e); try done.
  - by rewrite !app_nil_l, replicate_S_end.
  - by rewrite app_nil_l, length_replicate.
Qed.

Lemma refused_weight_keeps_formula_witness :
  fetch_cas_info (builtins := sample_builtins) service_flaky "7732-18-5" manual_data []
  = (Ok (PStr "H2O", None), [url_of "7732-18-5"; url_of "7732-18-5"]).
Proof.
  apply (refused_weight_keeps_formula sample_builtins service_flaky manual_data
           "7732-18-5" 1
           [("CID", PInt 962%Z); ("MolecularFormula", PStr "H2O");
            ("MolecularWeight", PStr "N/A")] ValueError).
  - vm_compute. reflexivity.
  - lia.
  - intros k Hk. assert (k = 0) as -> by lia. reflexivity.
  - reflexivity.
  - reflexivity.
  - right. reflexivity.
Defined.

(** C6. [fetch_cas_info] never raises: whatever the service does, it
    returns a pair, having sent at most three requests; when every attempt
    ends in one of the failure modes (transport error or timeout,
    non-success status, malformed body, no or empty record list) it returns
    (None, None). Hence every future of a run holds a value, and the run
    itself returns a frame. *)
Theorem resolver_never_raises
    (builtins : Builtins) (service : RemoteService)
    (net : Network) (pool : Scheduler) :
  (∀ (table : gmap string PropertyResult) cas log,
     ∃ result sent,
       fetch_cas_info service cas table log = (Ok result, log ++ sent)
       ∧ length sent ≤ 3)
  ∧ (∀ (table : gmap string PropertyResult) cas,
       table !! cas = None →
       (∀ k, k < 3 → FailureMode (service (url_of cas) k)) →
       fetch_cas_info service cas table [] = (Ok absent, replicate 3 (url_of cas)))
  ∧ (∀ df,
       (∃ out, returned (process_file net pool df) = Ok out)
       ∧ ∀ future idx, (future, idx) ∈ future_to_index (process_file net pool df) →
                       ∃ result, fut_result future = Ok result).
Proof.
  split_and!.
  - intros table cas log. apply fetch_cas_info_total.
  - intros table cas Hmiss Hfail. unfold fetch_cas_info. rewrite Hmiss.
    rewrite retry_loop_exhausted; [done |].
    intros k Hk. apply FailureMode_no_record, Hfail, Hk.
  - intros df. destruct (df_empty df) eqn:Hempty.
    + unfold process_file. rewrite Hempty. simpl. split; [by exists df |].
      intros ?? Hin. by apply elem_of_nil in Hin.
    + destruct (process_file_run net pool df Hempty)
        as (ids & _ & _ & out & _ & Hret & -> & _).
      split; [by exists out |].
      intros future idx Hin.
      apply submit_loop_elem in Hin as (cas & _ & _ & _ & ->).
      apply submit_returns.
Qed.

Lemma resolver_never_raises_witness :
  fetch_cas_info (builtins := sample_builtins) service_failing "0000-00-0" manual_data []
  = (Ok absent, replicate 3 (url_of "0000-00-0")).
Proof.
  destruct (resolver_never_raises sample_builtins service_failing
              (λ _, service_failing) fifo) as (_ & Hdegrade & _).
  apply Hdegrade.
  - vm_compute. reflexivity.
  - intros k Hk.
    destruct k as [|[|[|k]]]; [| | | lia]; simpl.
    + apply transport_error.
    + apply non_success_status. simpl. lia.
    + eapply empty_record_list; reflexivity.
Defined.

(** C7, as stated, fails on a sheet holding one override entry: a future is
    created for its row (it returns the table's value, having sent no
    request). *)
Lemma override_hit_is_submitted :
  future_to_index (process_file (builtins := sample_builtins)
                     (λ _, service_down) fifo override_sheet)
  = [({| fut_cas := "77536-66-4";
         fut_result := Ok (PStr "Ca2Fe5H2O24Si8", Some 970.1%float);
         fut_requests := [] |}, 0)].
Proof. vm_compute. reflexivity. Qed.

(** C7, amended. The futures of a run are exactly one per non-empty
    identifier, tagged with its row, whether or not the override table has
    the identifier. For an identifier the table has, the future of its row
    returns the table's value, having sent no request, and the value is
    recorded in the slot of that row. *)
Theorem every_nonempty_identifier_is_submitted
    (builtins : Builtins) (net : Network) (pool : Scheduler)
    (df : DataFrame) (cas_series : list string) :
  cas_series_of df = Ok cas_series →
  (∀ future idx,
     (future, idx) ∈ future_to_index (process_file net pool df)
     ↔ ∃ cas, cas_series !! idx = Some cas ∧ cas ≠ "" ∧ future = submit net idx cas)
  ∧ (∀ idx cas result,
       cas_series !! idx = Some cas →
       manual_data !! cas = Some result →
       (submit net idx cas, idx) ∈ future_to_index (process_file net pool df)
       ∧ submit net idx cas
         = {| fut_cas := cas; fut_result := Ok result; fut_requests := [] |}
       ∧ ∃ out formulas weights,
           returned (process_file net pool df) = Ok out
           ∧ df_column formula_column out = Some formulas
           ∧ df_column weight_column out = Some weights
           ∧ formulas !! idx = Some result.1
           ∧ weights !! idx = Some (weight_cell result.2)).
Proof.
  intros Hseries.
  assert (∀ future idx,
            (future, idx) ∈ future_to_index (process_file net pool df)
            ↔ ∃ cas, cas_series !! idx = Some cas ∧ cas ≠ ""
                     ∧ future = submit net idx cas) as Hfutures.
  { intros future idx. rewrite (process_file_futures _ _ _ _ Hseries), submit_loop_elem.
    split.
    - intros (cas & _ & Hl & Hne & ->). rewrite Nat.sub_0_r in Hl. by exists cas.
    - intros (cas & Hl & Hne & ->). exists cas. rewrite Nat.sub_0_r.
      split_and!; try done. lia. }
  split; [done |].
  intros idx cas result Hidx Hhit. split_and!.
  - apply Hfutures. exists cas. split_and!; try done.
    by eapply manual_data_key_not_empty.
  - by apply submit_override.
  - destruct (process_file_slot net pool df cas_series idx cas Hseries Hidx)
      as (out & formulas & weights & Hret & Hf & Hw & Hfi & Hwi).
    rewrite (slot_override net idx cas result Hhit) in Hfi, Hwi.
    by exists out, formulas, weights.
Qed.

Lemma every_nonempty_identifier_is_submitted_witness :
  (submit (builtins := sample_builtins) (λ _, service_down) 0 "77536-66-4", 0)
  ∈ future_to_index (process_file (builtins := sample_builtins)
                       (λ _, service_down) lifo example_sheet)
  ∧ (submit (builtins := sample_builtins) (λ _, service_down) 2 "0000-00-0", 2)
    ∈ future_to_index (process_file (builtins := sample_builtins)
                         (λ _, service_down) lifo example_sheet).
Proof.
  destruct (every_nonempty_identifier_is_submitted sample_builtins
              (λ _, service_down) lifo example_sheet
              ["77536-66-4"; ""; "0000-00-0"]) as [Hfutures Hhit].
  - reflexivity.
  - split.
    + apply (Hhit 0 "77536-66-4" (PStr "Ca2Fe5H2O24Si8", Some 970.1%float)).
      * reflexivity.
      * vm_compute. reflexivity.
    + apply Hfutures. exists "0000-00-0". split_and!; done.
Defined.

(** C8, as stated, fails on an override entry typed with a leading blank:
    the identifier keeps the blank, the table (which has the trimmed entry)
    is missed, and three requests are sent for the padded name. *)
Lemma padded_identifier_is_not_trimmed :
  cas_series_of (builtins := sample_builtins) padded_sheet = Ok [" 12185-10-3"]
  ∧ spec_normalize (builtins := sample_builtins) (PStr " 12185-10-3") = "12185-10-3"
  ∧ manual_data !! "12185-10-3" = Some (PStr "P4", Some 123.8950480%float)
  ∧ future_to_index (process_file (builtins := sample_builtins)
                       (λ _, service_down) fifo padded_sheet)
    = [({| fut_cas := " 12185-10-3";
           fut_result := Ok absent;
           fut_requests := replicate 3 (url_of " 12185-10-3") |}, 0)].
Proof. vm_compute. done. Qed.

(** C8, amended. Every cell of the first column becomes an identifier by
    string coercion alone, with no trimming: a cell that is not missing
    gives its [str], so a text cell gives its text unchanged, blanks
    included. A blank or missing cell gives the empty identifier; and the
    row of a blank cell, a missing cell or an empty text has (None, None) in
    its slot and no future, so no request is sent for it. *)
Theorem identifier_is_str_of_cell
    (builtins : Builtins) (net : Network) (pool : Scheduler)
    (df : DataFrame) (cells : list pyval) :
  df_iloc0 df = Ok cells →
  ∃ cas_series,
    cas_series_of df = Ok cas_series
    ∧ length cas_series = length cells
    ∧ (∀ idx v, cells !! idx = Some v →
         cas_series !! idx = Some (if py_isna v then "" else py_str v))
    ∧ (∀ idx s, cells !! idx = Some (PStr s) → cas_series !! idx = Some s)
    ∧ (∀ idx v, cells !! idx = Some v →
         py_isna v = true ∨ v = PStr "" →
         cas_series !! idx = Some ""
         ∧ (∃ out formulas weights,
              returned (process_file net pool df) = Ok out
              ∧ df_column formula_column out = Some formulas
              ∧ df_column weight_column out = Some weights
              ∧ formulas !! idx = Some PNone
              ∧ weights !! idx = Some PNone)
         ∧ ∀ future, (future, idx) ∉ future_to_index (process_file net pool df)).
Proof.
  intros Hcells.
  set (identifier := λ v : pyval, if py_isna v then "" else py_str v).
  assert (cas_series_of df = Ok (identifier <$> cells)) as Hseries.
  { unfold cas_series_of. rewrite Hcells. cbn [mbind res_bind].
    unfold fillna, astype_str. rewrite <- list_fmap_compose.
    apply (f_equal Ok), list_fmap_ext. intros _ v _. unfold identifier. simpl.
    by destruct (py_isna v). }
  assert (∀ idx v, cells !! idx = Some v →
            (identifier <$> cells) !! idx = Some (identifier v)) as Hcoerce.
  { intros idx v Hidx. by rewrite list_lookup_fmap, Hidx. }
  exists (identifier <$> cells). split_and!; try done.
  - by rewrite length_fmap.
  - intros idx s Hidx. by rewrite (Hcoerce idx _ Hidx).
  - intros idx v Hidx Hblank.
    assert ((identifier <$> cells) !! idx = Some "") as Hempty.
    { rewrite (Hcoerce idx v Hidx). unfold identifier.
      by destruct Hblank as [-> | ->]. }
    split_and!; [done | |].
    + apply (process_file_slot net pool df _ idx "" Hseries Hempty).
    + intros future. by eapply empty_identifier_not_submitted.
Qed.

Lemma identifier_is_str_of_cell_witness :
  ∃ cas_series,
    cas_series_of (builtins := sample_builtins) mixed_sheet = Ok cas_series
    ∧ cas_series !! 0 = Some " 12185-10-3"
    ∧ cas_series !! 1 = Some ""
    ∧ cas_series !! 2 = Some "50000"
    ∧ cas_series !! 3 = Some ""
    ∧ ∀ future,
        (future, 1) ∉ future_to_index (process_file (builtins := sample_builtins)
                                         (λ _, service_down) lifo mixed_sheet).
Proof.
  destruct (identifier_is_str_of_cell sample_builtins (λ _, service_down) lifo
              mixed_sheet [PStr " 12185-10-3"; PFloat nan; PInt 50000%Z; PStr ""])
    as (cas_series & Hseries & Hlen & Hcoerce & Htext & Hblank).
  - reflexivity.
  - exists cas_series. split_and!.
    + exact Hseries.
    + apply (Htext 0 " 12185-10-3"). reflexivity.
    + apply (Hblank 1 (PFloat nan)); [reflexivity | left; reflexivity].
    + exact (Hcoerce 2 (PInt 50000%Z) eq_refl).
    + apply (Hblank 3 (PStr "")); [reflexivity | right; reflexivity].
    + apply (Hblank 1 (PFloat nan)); [reflexivity | left; reflexivity].
Defined.

(** C10. On a sheet with no row, [process_file] returns the frame it read,
    unchanged, so without a formula or a weight column, and creates no
    future. *)
Theorem frame_without_rows_is_returned_unchanged
    (builtins : Builtins) (net : Network) (pool : Scheduler) (df : DataFrame) :
  df_len df = 0 →
  process_file net pool df = {| returned := Ok df; future_to_index := [] |}.
Proof.
  intros Hrows. apply df_empty_len in Hrows. unfold process_file. by rewrite Hrows.
Qed.

Lemma frame_without_rows_is_returned_unchanged_witness :
  process_file (builtins := sample_builtins) (λ _, service_down) fifo empty_sheet
  = {| returned := Ok empty_sheet; future_to_index := [] |}.
Proof.
  apply (frame_without_rows_is_returned_unchanged sample_builtins
           (λ _, service_down) fifo empty_sheet).
  reflexivity.
Defined.

(** ** Further examples *)

(** The end-to-end example of the specification, with a service that is
    down and the futures finishing in reverse order. *)
Example end_to_end_example :
  returned (process_file (builtins := sample_builtins)
              (λ _, service_down) lifo example_sheet)
  = Ok [("CAS No.", [PStr "77536-66-4"; PStr ""; PStr "0000-00-0"]);
        (formula_column, [PStr "Ca2Fe5H2O24Si8"; PNone; PNone]);
        (weight_column, [PFloat 970.1%float; PNone; PNone])].
Proof. vm_compute. reflexivity. Qed.

(** A record whose weight is an integer too large for a float: [float]
    raises OverflowError, which the inner handler does not catch, so the
    attempt counts as failed. *)
Lemma attempt_weight_overflow
    (builtins : Builtins) (service : RemoteService) url log prop :
  first_record (service url (length log)) = Some prop →
  py_float (record_field "MolecularWeight" prop) = Raise OverflowError →
  attempt service url log = (Ok None, log ++ [url]).
Proof.
  unfold first_record, record_field, attempt, py_try, attempt_body,
    requests_get, lift, mbind, mret, Py_bind, Py_ret, py_get.
  intros Hrec Hfloat.
  repeat (case_match; simplify_eq/=; try done).
  all: rewrite Hfloat in *; simplify_eq/=; done.
Qed.

(** A blank cell is read as a NaN: [astype(str)] keeps it missing and
    [fillna("")] makes the empty identifier of it. *)
Lemma blank_cell_identifier (builtins : Builtins) (header : string) :
  cas_series_of [(header, [PFloat nan])] = Ok [""].
Proof. reflexivity. Qed.

(** * Further properties of the code *)

(** ** The resolver, attempt by attempt *)

Section ResolverMore.
Context {builtins : Builtins}.
Variable service : RemoteService.

Lemma snoc_replicate (log : list string) url k :
  (log ++ [url]) ++ replicate k url = log ++ replicate (S k) url.
Proof. by rewrite <- app_assoc. Qed.

(** [float] raises nothing but these three. *)
Lemma py_float_raises v e :
  py_float v = Raise e → e = TypeError ∨ e = ValueError ∨ e = OverflowError.
Proof.
  destruct v; simpl; try (intros [= <-]; auto); try done.
  - destruct (float_of_int z); simpl; [done | intros [= <-]; auto].
  - destruct (float_of_str s); simpl; [done | intros [= <-]; auto].
Qed.

(** An iteration that returns has a record in hand, and returns the
    record's formula with [float] of the record's weight, or with no weight
    when [float] refuses. *)
Lemma attempt_returns_inv url log result :
  attempt service url log = (Ok (Some result), log ++ [url]) →
  ∃ prop,
    first_record (service url (length log)) = Some prop
    ∧ result.1 = record_field "MolecularFormula" prop
    ∧ result.2 = match py_float (record_field "MolecularWeight" prop) with
                 | Ok w => Some w
                 | Raise _ => None
                 end.
Proof.
  intros Hret.
  destruct (first_record (service url (length log))) as [prop|] eqn:Hrec.
  - exists prop. split; [done |].
    destruct (py_float (record_field "MolecularWeight" prop)) as [w|e] eqn:Hfloat.
    + rewrite (attempt_weight_accepted service url log prop w Hrec Hfloat) in Hret.
      by injection Hret as <-.
    + destruct (py_float_raises _ _ Hfloat) as [He|[He|He]].
      * rewrite (attempt_weight_refused service url log prop e Hrec Hfloat) in Hret
          by auto.
        by injection Hret as <-.
      * rewrite (attempt_weight_refused service url log prop e Hrec Hfloat) in Hret
          by auto.
        by injection Hret as <-.
      * subst e.
        by rewrite (attempt_weight_overflow builtins service url log prop Hrec Hfloat)
          in Hret.
  - by rewrite (attempt_no_record service url log Hrec) in Hret.
Qed.

(** When no iteration returns, the loop sends all its requests and ends in
    (None, None). *)
Lemma retry_loop_no_return n url : ∀ log,
  (∀ k, k < n →
     attempt service url (log ++ replicate k url)
     = (Ok None, log ++ replicate (S k) url)) →
  retry_loop service n url log = (Ok absent, log ++ replicate n url).
Proof.
  induction n as [|n IH]; intros log Hnone.
  - by rewrite app_nil_r.
  - cbn [retry_loop]. unfold mbind, Py_bind.
    pose proof (Hnone 0 ltac:(lia)) as H0. simpl in H0. rewrite app_nil_r in H0.
    rewrite H0, IH; [by rewrite snoc_replicate |].
    intros k Hk. rewrite !snoc_replicate. apply Hnone. lia.
Qed.

(** What the loop did, read off its outcome: either no iteration returned,
    or iteration [j] was the first to return and the loop stopped there. *)
Lemma retry_loop_inv n url : ∀ log result log',
  retry_loop service n url log = (Ok result, log') →
  (result = absent ∧ log' = log ++ replicate n url)
  ∨ ∃ j, j < n
         ∧ log' = log ++ replicate (S j) url
         ∧ attempt service url (log ++ replicate j url)
           = (Ok (Some result), log ++ replicate (S j) url).
Proof.
  induction n as [|n IH]; intros log result log' Hloop.
  - left. cbn in Hloop. injection Hloop as <- <-. by rewrite app_nil_r.
  - cbn [retry_loop] in Hloop. unfold mbind, Py_bind in Hloop.
    destruct (attempt_total service url log) as [r Hr]. rewrite Hr in Hloop.
    destruct r as [returned_now|].
    + right. exists 0. cbn in Hloop. injection Hloop as <- <-.
      split_and!; [lia | done |]. simpl. by rewrite app_nil_r.
    + destruct (IH _ _ _ Hloop) as [[-> ->]|(j & Hj & -> & Hat)].
      * left. by rewrite snoc_replicate.
      * right. exists (S j). rewrite !snoc_replicate in Hat.
        rewrite snoc_replicate. split_and!; [lia | done | done].
Qed.

(** The requests of a call: none on a table hit, else between one and
    three, all to the URL of the identifier. *)
Lemma fetch_cas_info_sent (table : gmap string PropertyResult) cas log :
  ∃ result n,
    fetch_cas_info service cas table log
    = (Ok result, log ++ replicate n (url_of cas))
    ∧ n ≤ 3
    ∧ (table !! cas = None → 1 ≤ n)
    ∧ (∀ stored, table !! cas = Some stored → n = 0 ∧ result = stored).
Proof.
  unfold fetch_cas_info. destruct (table !! cas) as [stored|] eqn:Hlook.
  - exists stored, 0. simpl. rewrite app_nil_r.
    split_and!; [done | lia | done |]. by intros ? [= <-].
  - destruct (retry_loop_total service 3 (url_of cas) log)
      as (result & sent & Hloop & _).
    destruct (retry_loop_inv _ _ _ _ _ Hloop) as [[-> Hsent]|(j & Hj & Hsent & _)].
    + exists absent, 3. rewrite Hloop, Hsent. split_and!; [done | lia | lia | done].
    + exists result, (S j). rewrite Hloop, Hsent.
      split_and!; [done | lia | lia | done].
Qed.
End ResolverMore.

(** X1. For an identifier that is not in the override table: when the
    first [j] requests ([j] below 3) bring no record and the next one brings
    a record whose weight [float] accepts, [fetch_cas_info] returns the
    record's formula with that float, and the request that brought the
    record is the last one sent. *)
Theorem first_record_is_returned
    (builtins : Builtins) (service : RemoteService)
    (table : gmap string PropertyResult) (cas : string)
    (j : nat) (prop : list (string * pyval)) (w : float) :
  table !! cas = None →
  j < 3 →
  (∀ k, k < j → first_record (service (url_of cas) k) = None) →
  first_record (service (url_of cas) j) = Some prop →
  py_float (record_field "MolecularWeight" prop) = Ok w →
  fetch_cas_info service cas table []
  = (Ok (record_field "MolecularFormula" prop, Some w), replicate (S j) (url_of cas)).
Proof.
  intros Hmiss Hj Hfail Hrec Hfloat. unfold fetch_cas_info. rewrite Hmiss.
  apply (retry_loop_returns service 3 j (url_of cas) []); [done | done |].
  rewrite (attempt_weight_accepted service (url_of cas) _ prop w); try done.
  - by rewrite !app_nil_l, replicate_S_end.
  - by rewrite app_nil_l, length_replicate.
Qed.

Lemma first_record_is_returned_witness :
  fetch_cas_info (builtins := sample_builtins) service_third_time
    "7732-18-5" manual_data []
  = (Ok (PStr "H2O", Some 18.015%float),
     [url_of "7732-18-5"; url_of "7732-18-5"; url_of "7732-18-5"]).
Proof.
  apply (first_record_is_returned sample_builtins service_third_time manual_data
           "7732-18-5" 2 water_record_weighed 18.015%float).
  - vm_compute. reflexivity.
  - lia.
  - intros k Hk. destruct k as [|[|k]]; [reflexivity | reflexivity | lia].
  - reflexivity.
  - reflexivity.
Defined.

(** X2. A record whose weight [float] rejects with an OverflowError (an
    integer beyond the range of a float) is no partial success: the attempt
    counts as failed like one that brought no record. When each of the three
    attempts ends in one of these two ways, [fetch_cas_info] returns
    (None, None) after three requests and the formulas received are lost. *)
Theorem overflowing_weight_is_a_failed_attempt
    (builtins : Builtins) (service : RemoteService)
    (table : gmap string PropertyResult) (cas : string) :
  table !! cas = None →
  (∀ k, k < 3 →
     first_record (service (url_of cas) k) = None
     ∨ ∃ prop, first_record (service (url_of cas) k) = Some prop
               ∧ py_float (record_field "MolecularWeight" prop) = Raise OverflowError) →
  fetch_cas_info service cas table [] = (Ok absent, replicate 3 (url_of cas)).
Proof.
  intros Hmiss Hfail. unfold fetch_cas_info. rewrite Hmiss.
  apply (retry_loop_no_return service 3 (url_of cas) []).
  intros k Hk. rewrite !app_nil_l, replicate_S_end.
  destruct (Hfail k Hk) as [Hnone|(prop & Hrec & Hfloat)].
  - apply attempt_no_record. by rewrite length_replicate.
  - apply (attempt_weight_overflow builtins service _ _ prop); [| done].
    by rewrite length_replicate.
Qed.

Lemma overflowing_weight_is_a_failed_attempt_witness :
  fetch_cas_info (builtins := sample_builtins) service_huge_weight
    "7732-18-5" manual_data []
  = (Ok absent, replicate 3 (url_of "7732-18-5")).
Proof.
  apply (overflowing_weight_is_a_failed_attempt sample_builtins service_huge_weight
           manual_data "7732-18-5").
  - vm_compute. reflexivity.
  - intros k Hk. right. exists huge_record. split; reflexivity.
Defined.

(** X3. Whatever the service does, the requests of one call of
    [fetch_cas_info] all go to the URL built from the identifier; there is
    none when the table has the identifier, and between one and three when
    it has not. *)
Theorem requests_go_to_the_identifier_url
    (builtins : Builtins) (service : RemoteService)
    (table : gmap string PropertyResult) (cas : string) (log : list string) :
  ∃ result n,
    fetch_cas_info service cas table log
    = (Ok result, log ++ replicate n (url_of cas))
    ∧ (is_Some (table !! cas) → n = 0)
    ∧ (table !! cas = None → 1 ≤ n ≤ 3).
Proof.
  destruct (fetch_cas_info_sent service table cas log)
    as (result & n & Hfetch & Hn & Hmiss & Hhit).
  exists result, n. split_and!; [done | |].
  - intros [stored Hstored]. by destruct (Hhit stored Hstored).
  - intros Hnone. split; [by apply Hmiss | done].
Qed.

(** X4. [fetch_cas_info] invents nothing. For an identifier that is not in
    the table, its result is either (None, None) after three requests, or
    it comes from a record that one of the requests brought: the formula is
    that record's "MolecularFormula" entry as it stands, the weight is
    [float] of its "MolecularWeight" entry or None when [float] refuses,
    and no request follows the one that brought the record. *)
Theorem result_comes_from_a_record
    (builtins : Builtins) (service : RemoteService)
    (table : gmap string PropertyResult) (cas : string)
    (result : PropertyResult) (sent : list string) :
  table !! cas = None →
  fetch_cas_info service cas table [] = (Ok result, sent) →
  (result = absent ∧ sent = replicate 3 (url_of cas))
  ∨ ∃ j prop,
      j < 3
      ∧ sent = replicate (S j) (url_of cas)
      ∧ first_record (service (url_of cas) j) = Some prop
      ∧ result.1 = record_field "MolecularFormula" prop
      ∧ result.2 = match py_float (record_field "MolecularWeight" prop) with
                   | Ok w => Some w
                   | Raise _ => None
                   end.
Proof.
  intros Hmiss Hfetch. unfold fetch_cas_info in Hfetch. rewrite Hmiss in Hfetch.
  destruct (retry_loop_inv service _ _ _ _ _ Hfetch) as [[-> ->]|(j & Hj & -> & Hat)].
  - by left.
  - right. rewrite !app_nil_l, replicate_S_end in Hat.
    apply attempt_returns_inv in Hat as (prop & Hrec & Hformula & Hweight).
    rewrite length_replicate in Hrec.
    exists j, prop. by rewrite app_nil_l.
Qed.

Lemma result_comes_from_a_record_witness :
  ((PStr "H2O", None) = absent
   ∧ [url_of "7732-18-5"; url_of "7732-18-5"] = replicate 3 (url_of "7732-18-5"))
  ∨ ∃ j prop,
      j < 3
      ∧ [url_of "7732-18-5"; url_of "7732-18-5"] = replicate (S j) (url_of "7732-18-5")
      ∧ first_record (service_flaky (url_of "7732-18-5") j) = Some prop
      ∧ (PStr "H2O", @None float).1 = record_field "MolecularFormula" prop
      ∧ (PStr "H2O", @None float).2
        = match py_float (builtins := sample_builtins)
                  (record_field "MolecularWeight" prop) with
          | Ok w => Some w
          | Raise _ => None
          end.
Proof.
  apply (result_comes_from_a_record sample_builtins service_flaky manual_data
           "7732-18-5" (PStr "H2O", None) [url_of "7732-18-5"; url_of "7732-18-5"]).
  - vm_compute. reflexivity.
  - vm_compute. reflexivity.
Defined.

(** ** The frame a run returns *)

Lemma set_column_fresh name values df :
  df_column name df = None → set_column name values df = df ++ [(name, values)].
Proof.
  induction df as [|[n cells] df IH]; simpl; [done |].
  destruct (String.eqb n name); [done |]. intros Hnone. by rewrite IH.
Qed.

Lemma set_column_same name values df :
  df_column name df = Some values → set_column name values df = df.
Proof.
  induction df as [|[n cells] df IH]; simpl; [done |].
  destruct (String.eqb n name) eqn:Hn.
  - apply String.eqb_eq in Hn as ->. by intros [= ->].
  - intros Hsome. by rewrite IH.
Qed.

Lemma df_column_app_fresh name name' values df :
  df_column name df = None → name ≠ name' →
  df_column name (df ++ [(name', values)]) = None.
Proof.
  intros Hnone Hne. induction df as [|[n cells] df IH]; simpl in *.
  - by apply String.eqb_neq in Hne; rewrite String.eqb_sym, Hne.
  - destruct (String.eqb n name); [done |]. by apply IH.
Qed.

Section FrameFacts.
Context {builtins : Builtins}.
Variable net : Network.
Variable pool : Scheduler.

Lemma slots_length cas_series : length (slots net cas_series) = length cas_series.
Proof. unfold slots. by rewrite length_imap. Qed.

Lemma slots_lookup cas_series idx :
  slots net cas_series !! idx = slot net idx <$> cas_series !! idx.
Proof. unfold slots. by rewrite list_lookup_imap. Qed.

Lemma fut_cas_submit idx cas : fut_cas (submit net idx cas) = cas.
Proof.
  unfold submit. by destruct (fetch_cas_info (net idx) cas manual_data []).
Qed.

(** A run on a frame with rows, in closed form: the frame returned is the
    frame read with the two columns set to the slots of the rows. *)
Lemma process_file_closed_form df :
  df_empty df = false →
  ∃ cas_series,
    cas_series_of df = Ok cas_series
    ∧ process_file net pool df
      = {| returned :=
             Ok (set_column weight_column
                   (weight_cell <$> (slots net cas_series).*2)
                   (set_column formula_column (slots net cas_series).*1 df));
           future_to_index := submit_loop net 0 cas_series |}.
Proof.
  intros Hne.
  destruct (process_file_run net pool df Hne)
    as (ids & formulas & weights & out & Hids & Hret & Hfut & Hf & Hw & Hlf & Hlw & Hslot).
  exists ids. split; [done |].
  assert (formulas = (slots net ids).*1) as Hformulas.
  { apply list_eq. intros i. rewrite list_lookup_fmap, slots_lookup.
    destruct (ids !! i) as [cas|] eqn:Hi; simpl.
    - by destruct (Hslot i cas Hi) as [-> _].
    - apply lookup_ge_None in Hi. apply lookup_ge_None. lia. }
  assert (weights = (slots net ids).*2) as Hweights.
  { apply list_eq. intros i. rewrite list_lookup_fmap, slots_lookup.
    destruct (ids !! i) as [cas|] eqn:Hi; simpl.
    - by destruct (Hslot i cas Hi) as [_ ->].
    - apply lookup_ge_None in Hi. apply lookup_ge_None. lia. }
  subst formulas weights.
  destruct (process_file net pool df) as [ret futs] eqn:Hrun.
  cbn [returned future_to_index] in Hret, Hfut. subst ret futs. f_equal. f_equal.
  unfold process_file in Hrun. rewrite Hne, Hids in Hrun.
  injection Hrun as Hrun.
  destruct (collect_loop _ _ _) as [[fs ws]|e]; [| done].
  cbn [mbind res_bind] in Hrun. unfold df_setitem in Hrun.
  destruct (length fs =? df_len df); [| done].
  cbn [mbind res_bind] in Hrun.
  destruct (length (weight_cell <$> ws) =? _); [| done].
  injection Hrun as <-.
  rewrite df_column_set_column_ne in Hf by apply formula_weight_columns_differ.
  rewrite df_column_set_column_eq in Hf, Hw.
  injection Hf as ->. by injection Hw as ->.
Qed.
End FrameFacts.

(** X5. The outcome of a run does not depend on the order in which the
    futures finish: the frame returned and the futures are the same for any
    two orders of completion. *)
Theorem completion_order_is_irrelevant
    (builtins : Builtins) (net : Network) (pool pool' : Scheduler) (df : DataFrame) :
  process_file net pool df = process_file net pool' df.
Proof.
  destruct (df_empty df) eqn:Hempty.
  - unfold process_file. by rewrite Hempty.
  - destruct (process_file_closed_form net pool df Hempty) as (ids & Hids & ->).
    destruct (process_file_closed_form net pool' df Hempty) as (ids' & Hids' & ->).
    by assert (ids' = ids) as -> by congruence.
Qed.

(** X6. A run leaves the rest of the frame alone: the number of rows is
    the same, and every column whose name is not one of the two result
    names holds the cells it held. *)
Theorem other_columns_are_kept
    (builtins : Builtins) (net : Network) (pool : Scheduler)
    (df : DataFrame) (name : string) :
  name ≠ formula_column →
  name ≠ weight_column →
  ∃ out,
    returned (process_file net pool df) = Ok out
    ∧ df_len out = df_len df
    ∧ df_column name out = df_column name df.
Proof.
  intros Hf Hw. destruct (df_empty df) eqn:Hempty.
  - exists df. unfold process_file. by rewrite Hempty.
  - destruct (process_file_closed_form net pool df Hempty) as (ids & Hids & ->).
    eexists. split; [done |].
    assert (df ≠ []) as Hdf by (by intros ->).
    pose proof (cas_series_length df ids Hids) as Hrows.
    assert (df_len (set_column formula_column (slots net ids).*1 df) = df_len df) as Hlen.
    { apply df_len_set_column; [| done]. by rewrite length_fmap, slots_length. }
    split.
    + rewrite df_len_set_column; [done | | apply set_column_not_nil].
      by rewrite Hlen, !length_fmap, slots_length.
    + by rewrite !df_column_set_column_ne.
Qed.

Lemma other_columns_are_kept_witness :
  ∃ out,
    returned (process_file (builtins := sample_builtins)
                (λ _, service_down) lifo two_column_sheet) = Ok out
    ∧ df_len out = df_len two_column_sheet
    ∧ df_column "Name" out = df_column "Name" two_column_sheet.
Proof.
  apply (other_columns_are_kept sample_builtins (λ _, service_down) lifo
           two_column_sheet "Name"); vm_compute; discriminate.
Defined.

(** X7. On a frame with rows that has no column under either result name,
    the frame returned is the frame read followed by two new columns, the
    formulas and then the weights of the rows' slots. *)
Theorem result_columns_are_appended
    (builtins : Builtins) (net : Network) (pool : Scheduler)
    (df : DataFrame) (cas_series : list string) :
  df_empty df = false →
  cas_series_of df = Ok cas_series →
  df_column formula_column df = None →
  df_column weight_column df = None →
  returned (process_file net pool df)
  = Ok (df ++ [(formula_column, (slots net cas_series).*1);
               (weight_column, weight_cell <$> (slots net cas_series).*2)]).
Proof.
  intros Hempty Hseries Hf Hw.
  destruct (process_file_closed_form net pool df Hempty) as (ids & Hids & ->).
  assert (ids = cas_series) as -> by congruence.
  cbn [returned]. f_equal.
  rewrite (set_column_fresh formula_column _ df Hf).
  rewrite set_column_fresh.
  - by rewrite <- app_assoc.
  - apply df_column_app_fresh; [done |].
    intros Heq. by apply formula_weight_columns_differ.
Qed.

Lemma result_columns_are_appended_witness :
  returned (process_file (builtins := sample_builtins)
              (λ _, service_down) lifo two_column_sheet)
  = Ok (two_column_sheet
        ++ [(formula_column,
             (slots (builtins := sample_builtins) (λ _, service_down)
                ["77536-66-4"; "0000-00-0"]).*1);
            (weight_column,
             weight_cell <$> (slots (builtins := sample_builtins) (λ _, service_down)
                                ["77536-66-4"; "0000-00-0"]).*2)]).
Proof.
  apply (result_columns_are_appended sample_builtins (λ _, service_down) lifo
           two_column_sheet ["77536-66-4"; "0000-00-0"]); reflexivity.
Defined.

(** X8. Processing a processed frame changes nothing: when the first
    column is not named like a result column and the service answers as
    before, a run on the frame that a run returned returns that frame
    again, the two result columns being overwritten where they stand. *)
Theorem processing_twice_changes_nothing
    (builtins : Builtins) (net : Network) (pool pool' : Scheduler)
    (header : string) (cells : list pyval) (rest out : DataFrame) :
  header ≠ formula_column →
  header ≠ weight_column →
  returned (process_file net pool ((header, cells) :: rest)) = Ok out →
  returned (process_file net pool' out) = Ok out.
Proof.
  intros Hf Hw Hret. remember ((header, cells) :: rest) as df eqn:Hdf.
  destruct (df_empty df) eqn:Hempty.
  - unfold process_file in Hret. rewrite Hempty in Hret. injection Hret as <-.
    unfold process_file. by rewrite Hempty.
  - destruct (process_file_closed_form net pool df Hempty) as (ids & Hids & Hrun).
    rewrite Hrun in Hret. cbn [returned] in Hret. injection Hret as Hout.
    apply String.eqb_neq in Hf as Hfb. apply String.eqb_neq in Hw as Hwb.
    assert (∃ rest', out = (header, cells) :: rest') as [rest' Hshape].
    { rewrite <- Hout, Hdf. simpl. rewrite Hfb. simpl. rewrite Hwb. by eexists. }
    assert (df_empty out = false) as Hempty'.
    { rewrite Hshape. rewrite Hdf in Hempty. exact Hempty. }
    assert (cas_series_of out = Ok ids) as Hids'.
    { rewrite Hshape. rewrite Hdf in Hids. exact Hids. }
    destruct (process_file_closed_form net pool' out Hempty') as (ids' & Hids'' & ->).
    assert (ids' = ids) as -> by congruence.
    cbn [returned]. f_equal.
    assert (df_column formula_column out = Some (slots net ids).*1) as Hfc.
    { rewrite <- Hout.
      rewrite df_column_set_column_ne by apply formula_weight_columns_differ.
      apply df_column_set_column_eq. }
    assert (df_column weight_column out
            = Some (weight_cell <$> (slots net ids).*2)) as Hwc.
    { rewrite <- Hout. apply df_column_set_column_eq. }
    rewrite (set_column_same formula_column _ out Hfc).
    by rewrite (set_column_same weight_column _ out Hwc).
Qed.

Lemma processing_twice_changes_nothing_witness :
  returned
    (process_file (builtins := sample_builtins) (λ _, service_down) fifo
       [("CAS No.", [PStr "77536-66-4"; PStr ""; PStr "0000-00-0"]);
        (formula_column, [PStr "Ca2Fe5H2O24Si8"; PNone; PNone]);
        (weight_column, [PFloat 970.1%float; PNone; PNone])])
  = Ok [("CAS No.", [PStr "77536-66-4"; PStr ""; PStr "0000-00-0"]);
        (formula_column, [PStr "Ca2Fe5H2O24Si8"; PNone; PNone]);
        (weight_column, [PFloat 970.1%float; PNone; PNone])].
Proof.
  apply (processing_twice_changes_nothing sample_builtins (λ _, service_down)
           lifo fifo "CAS No."
           [PStr "77536-66-4"; PStr ""; PStr "0000-00-0"] []).
  - vm_compute. discriminate.
  - vm_compute. discriminate.
  - vm_compute. reflexivity.
Defined.

(** ** The futures of a run *)

Section FutureFacts.
Context {builtins : Builtins}.
Variable net : Network.

(** The submission loop from position [start] on: its futures, read as
    (position, identifier), are the enumerated identifiers that are not
    empty, in order. *)
Lemma submit_loop_tags cas_series : ∀ start,
  (λ item : Future * nat, (item.2, fut_cas item.1)) <$> submit_loop net start cas_series
  = filter (λ tagged : nat * string, tagged.2 ≠ "")
      (imap (λ i cas, (start + i, cas)) cas_series).
Proof.
  induction cas_series as [|c rest IH]; intros start; [done |].
  cbn [submit_loop]. rewrite imap_cons, Nat.add_0_r.
  rewrite (imap_ext _ (λ i cas, (S start + i, cas)) rest)
    by (intros i x _; simpl; f_equal; lia).
  destruct (py_truthy (PStr c)) eqn:Hc; cbn [negb].
  - apply truthy_str in Hc.
    rewrite filter_cons_True by done.
    rewrite fmap_cons, IH. cbn [fst snd]. by rewrite fut_cas_submit.
  - rewrite filter_cons_False; [apply IH |].
    simpl. intros Hne. apply Hne.
    destruct (decide (c = "")) as [|Hne']; [done |].
    apply truthy_str in Hne'. congruence.
Qed.

(** The requests of the future of a row. *)
Lemma submit_requests idx cas :
  ∃ n, fut_requests (submit net idx cas) = replicate n (url_of cas)
       ∧ n ≤ 3
       ∧ (manual_data !! cas = None → 1 ≤ n)
       ∧ (is_Some (manual_data !! cas) → n = 0).
Proof.
  destruct (fetch_cas_info_sent (net idx) manual_data cas [])
    as (result & n & Hfetch & Hn & Hmiss & Hhit).
  exists n. unfold submit. rewrite Hfetch. split_and!; try done.
  intros [stored Hstored]. by destruct (Hhit stored Hstored).
Qed.
End FutureFacts.

(** X9. The futures of a run, read as (row, identifier) in the order of
    submission, are the enumerated identifiers of the first column that are
    not the empty string: one future for each such row, also when an
    identifier occurs in several rows. *)
Theorem futures_follow_nonempty_identifiers
    (builtins : Builtins) (net : Network) (pool : Scheduler)
    (df : DataFrame) (cas_series : list string) :
  cas_series_of df = Ok cas_series →
  (λ item : Future * nat, (item.2, fut_cas item.1))
    <$> future_to_index (process_file net pool df)
  = filter (λ tagged : nat * string, tagged.2 ≠ "") (imap pair cas_series).
Proof.
  intros Hseries. rewrite (process_file_futures _ _ _ _ Hseries).
  apply (submit_loop_tags net cas_series 0).
Qed.

Lemma futures_follow_nonempty_identifiers_witness :
  (λ item : Future * nat, (item.2, fut_cas item.1))
    <$> future_to_index (process_file (builtins := sample_builtins)
                           (λ _, service_down) lifo
                           [("CAS No.", [PStr "50-00-0"; PStr ""; PStr "50-00-0"])])
  = filter (λ tagged : nat * string, tagged.2 ≠ "")
      (imap pair ["50-00-0"; ""; "50-00-0"]).
Proof.
  apply (futures_follow_nonempty_identifiers sample_builtins (λ _, service_down) lifo
           [("CAS No.", [PStr "50-00-0"; PStr ""; PStr "50-00-0"])]
           ["50-00-0"; ""; "50-00-0"]).
  reflexivity.
Defined.

(** X10. The requests of a run: the future of a row sent at most three
    requests, all to the URL of that row's identifier, which is not empty;
    it sent none when the override table has the identifier and at least
    one when it has not. *)
Theorem requests_of_a_row
    (builtins : Builtins) (net : Network) (pool : Scheduler)
    (df : DataFrame) (cas_series : list string) (future : Future) (idx : nat) :
  cas_series_of df = Ok cas_series →
  (future, idx) ∈ future_to_index (process_file net pool df) →
  ∃ cas n,
    cas_series !! idx = Some cas
    ∧ cas ≠ ""
    ∧ fut_requests future = replicate n (url_of cas)
    ∧ n ≤ 3
    ∧ (manual_data !! cas = None → 1 ≤ n)
    ∧ (is_Some (manual_data !! cas) → n = 0).
Proof.
  intros Hseries Hin. rewrite (process_file_futures _ _ _ _ Hseries) in Hin.
  apply submit_loop_elem in Hin as (cas & _ & Hl & Hne & ->).
  rewrite Nat.sub_0_r in Hl.
  destruct (submit_requests net idx cas) as (n & Hreq & Hn & Hmiss & Hhit).
  by exists cas, n.
Qed.

Lemma requests_of_a_row_witness :
  ∃ cas n,
    ["77536-66-4"; ""; "0000-00-0"] !! 2 = Some cas
    ∧ cas ≠ ""
    ∧ fut_requests (submit (builtins := sample_builtins) (λ _, service_down)
                      2 "0000-00-0")
      = replicate n (url_of cas)
    ∧ n ≤ 3
    ∧ (manual_data !! cas = None → 1 ≤ n)
    ∧ (is_Some (manual_data !! cas) → n = 0).
Proof.
  apply (requests_of_a_row sample_builtins (λ _, service_down) lifo
           example_sheet ["77536-66-4"; ""; "0000-00-0"]).
  - reflexivity.
  - vm_compute. right. left.
Defined.
